(** * owtf.error_handler: abort protocol and bug reporting

    A shallow embedding of [src/owtf/error_handler.py].  Methods of
    [ErrorHandler] become functions in a state-and-exception monad over a
    [World] that records, in order, every call made to a collaborator
    (logging, the console, the lifecycle owner, the error DB, the HTTP
    client) and holds the content of the error DB.

    [sys.exit(code)] raises [SystemExit(code)], which ends the process with
    that status unless a caller catches it; it is modelled as the exception
    it is.  [get_option_from_user] prompts on the terminal and no method
    calls it; it is left out. *)

From stdpp Require Import base option list strings.
From Stdlib Require Import ZArith Ascii.

Local Open Scope Z_scope.

(** ** Python strings *)

(** The character written [\n] in the source. *)
Definition nl : string := String "010"%char "".

(** [s * n] on a Python string. *)
Fixpoint str_mul (s : string) (n : nat) : string :=
  match n with
  | O => ""
  | S n' => s +:+ str_mul s n'
  end.

(** [sep.join(ls)]. *)
Definition join (sep : string) (ls : list string) : string :=
  String.concat sep ls.

(** [m in s] on Python strings: [m] occurs in [s] as a contiguous run. *)
Fixpoint is_substring (m s : string) : bool :=
  String.prefix m s ||
  match s with
  | EmptyString => false
  | String _ s' => is_substring m s'
  end.

(** ** Python values and exceptions *)

Set Warnings "-register-all".

(** The values that cross the boundary of [add_github_issue]: the decoded
    JSON body of an HTTP response, the dictionary handed to [json.dumps],
    and the [False] of the early return. *)
Inductive PyObj : Type :=
| PyNone
| PyBool (b : bool)
| PyInt (z : Z)
| PyStr (s : string)
| PyList (items : list PyObj)
| PyDict (fields : list (string * PyObj)).

Inductive Exn : Type :=
| SystemExit (code : Z)                        (* raised by sys.exit(code) *)
| AttributeError
| TypeError
| KeyError (key : string)
| ValueError
| FrameworkAbortException (partial_output : string)
| PluginAbortException (partial_output : string)
| Foreign (name : string).                     (* raised inside a collaborator *)

Definition is_AttributeError (e : Exn) : bool :=
  match e with
  | AttributeError => true
  | _ => false
  end.

Inductive Result (A : Type) : Type :=
| Return (a : A)
| Raise (e : Exn).
Arguments Return {A} a.
Arguments Raise {A} e.

(** ** The world around the handler *)

(** Modelled from the spec: the ErrorRecord of the error store, whose code
    (the [db_error] component) is not among the sources.  [reported] is false
    and the two report fields are absent until the record is marked. *)
Record ErrorRecord : Type := mkErrorRecord {
  rec_message : string;
  rec_trace : option string;
  reported : bool;
  report_body : option string;
  report_url : option PyObj
}.

(** What [sys.exc_info()] returns: the exception being handled, if any. *)
Record ExcInfo : Type := mkExcInfo {
  exc_type : option string;
  exc_value : option string;
  exc_traceback : list string
}.

Inductive Event : Type :=
| LoggingError (msg : string)                     (* logging.error(msg) *)
| LoggingInfo (msg : string)                      (* logging.info(msg) *)
| Cprint (msg : string)                           (* cprint(msg) *)
| Finish                                          (* core.finish() *)
| DbErrorAdd (message : string) (trace : option string)
| DbErrorUpdate (id : nat) (body : string) (flag : bool) (url : PyObj)
| RequestsPost (url : string) (headers : list (string * string)) (data : string).

Record World : Type := mkWorld {
  exc_info : ExcInfo;          (* ambient interpreter state *)
  events : list Event;         (* calls to collaborators, oldest first *)
  errors : list ErrorRecord    (* rows of the error DB, indexed by id *)
}.

(** ** State-and-exception monad *)

Definition M (A : Type) : Type := World -> Result A * World.

#[export] Instance M_ret : MRet M := fun A a w => (Return a, w).

#[export] Instance M_bind : MBind M := fun A B k m w =>
  match m w with
  | (Return a, w') => k a w'
  | (Raise e, w') => (Raise e, w')
  end.

Definition raise {A : Type} (e : Exn) : M A := fun w => (Raise e, w).

Definition emit (ev : Event) : M unit := fun w =>
  (Return tt, mkWorld (exc_info w) (events w ++ [ev]) (errors w)).

Definition set_errors (f : list ErrorRecord -> list ErrorRecord) : M unit :=
  fun w => (Return tt, mkWorld (exc_info w) (events w) (f (errors w))).

(** [try: body  except <catches>: handler]. *)
Definition try_except {A : Type} (body : M A) (catches : Exn -> bool)
    (handler : M A) : M A := fun w =>
  match body w with
  | (Raise e, w') => if catches e then handler w' else (Raise e, w')
  | r => r
  end.

(** Attribute access [obj.attr] on a field that is [None] until [init]. *)
Definition getattr {C A : Type} (obj : option C) (k : C -> M A) : M A :=
  match obj with
  | None => raise AttributeError
  | Some c => k c
  end.

(** ** Collaborators *)

(** The lifecycle owner.  [finish()] tears the framework down; whether it
    then returns or raises is the owner's business. *)
Record Core : Type := mkCore {
  finish_raises : option Exn
}.

Definition finish (c : Core) : M unit :=
  emit Finish ;;
  match finish_raises c with
  | Some e => raise e
  | None => mret tt
  end.

(** The [db] component; the handler only stores the reference. *)
Record DB : Type := mkDB { }.

(** Modelled from the spec: the handle on the error store.  [db_fault] is the
    unrecoverable storage error, if any, on which every operation of the
    store fails loudly. *)
Record ErrorDB : Type := mkErrorDB {
  db_fault : option Exn
}.

(** Modelled from the spec: [append(message, trace)] of the ErrorStore, the
    [add] method of the missing [db_error] component; the new record is not
    yet reported. *)
Definition db_error_add (d : ErrorDB) (message : string)
    (trace : option string) : M unit :=
  emit (DbErrorAdd message trace) ;;
  match db_fault d with
  | Some e => raise e
  | None =>
      set_errors (fun rows => rows ++ [mkErrorRecord message trace false None None])
  end.

Definition mark (body : string) (flag : bool) (url : PyObj)
    (r : ErrorRecord) : ErrorRecord :=
  mkErrorRecord (rec_message r) (rec_trace r) flag (Some body) (Some url).

(** Modelled from the spec: [mark_reported(record_id, body, reported_url)] of
    the ErrorStore, the [update_after_github_report] method of the missing
    [db_error] component. *)
Definition update_after_github_report (d : ErrorDB) (id : nat) (body : string)
    (flag : bool) (url : PyObj) : M unit :=
  emit (DbErrorUpdate id body flag url) ;;
  match db_fault d with
  | Some e => raise e
  | None => set_errors (alter (mark body flag url) id)
  end.

(** The configuration provider: string lookups by key. *)
Record Config : Type := mkConfig {
  get_val : string -> string
}.

(** The object [requests.post] returns; [json()] decodes the body and raises
    [ValueError] when the body is not JSON. *)
Record Response : Type := mkResponse {
  status_code : Z;
  body_json : option PyObj
}.

Definition json (r : Response) : M PyObj :=
  match body_json r with
  | Some v => mret v
  | None => raise ValueError
  end.

Fixpoint dict_get (fields : list (string * PyObj)) (key : string)
    : option PyObj :=
  match fields with
  | [] => None
  | (k, v) :: rest => if String.eqb k key then Some v else dict_get rest key
  end.

(** [obj[key]] with a string key. *)
Definition getitem (obj : PyObj) (key : string) : M PyObj :=
  match obj with
  | PyDict fields =>
      match dict_get fields key with
      | Some v => mret v
      | None => raise (KeyError key)
      end
  | _ => raise TypeError
  end.

(** Functions of other modules and libraries that the handler calls. *)
Class Externals : Type := {
  anonymise_command : string -> string;      (* OutputCleaner.anonymise_command *)
  format_exception : ExcInfo -> list string; (* traceback.format_exception *)
  json_dumps : PyObj -> string;              (* json.dumps *)
  post : string -> list (string * string) -> string -> Result Response
                                             (* the answer to requests.post *)
}.

Definition logging_error (msg : string) : M unit := emit (LoggingError msg).
Definition logging_info (msg : string) : M unit := emit (LoggingInfo msg).
Definition cprint (msg : string) : M unit := emit (Cprint msg).
Definition sys_exit {A : Type} (code : Z) : M A := raise (SystemExit code).
Definition sys_exc_info : M ExcInfo := fun w => (Return (exc_info w), w).

Definition requests_post `{Externals} (url : string)
    (headers : list (string * string)) (data : string) : M Response :=
  emit (RequestsPost url headers data) ;;
  match post url headers data with
  | Return r => mret r
  | Raise e => raise e
  end.

(** ** The handler *)

Record ErrorHandler : Type := mkErrorHandler {
  command : string;
  core : option Core;
  db : option DB;
  db_error : option ErrorDB;
  config : option Config;
  padding : string;
  sub_padding : string
}.

(** Class attribute. *)
Definition len_padding : nat := 100.

(** The handler as the constructor leaves it: no component resolved yet. *)
Definition __init__ : ErrorHandler :=
  mkErrorHandler "" None None None None
    (nl +:+ str_mul "_" len_padding +:+ nl +:+ nl)
    (nl +:+ str_mul "*" len_padding +:+ nl).

(** [init] takes the four components that [get_component] resolves. *)
Definition init (self : ErrorHandler) (core' : Core) (db' : DB)
    (db_error' : ErrorDB) (config' : Config) : ErrorHandler :=
  mkErrorHandler (command self) (Some core') (Some db') (Some db_error')
    (Some config') (padding self) (sub_padding self).

Definition set_command (self : ErrorHandler) (command' : string)
    : ErrorHandler :=
  mkErrorHandler command' (core self) (db self) (db_error self) (config self)
    (padding self) (sub_padding self).

Definition abort_framework (self : ErrorHandler) (message : string)
    : M string :=
  let message := "Aborted by Framework: " +:+ message in
  logging_error message ;;
  match core self with
  | None =>
      (* core being None means that OWTF is aborting super early. *)
      sys_exit (-1)
  | Some c => finish c
  end ;;
  mret message.

(** The notice of [user_abort], [level] filled in. *)
Definition abort_notice (level : string) : string :=
  nl +:+ "The " +:+ level +:+
  " was aborted by the user: Please check the report and plugin output files".

Definition user_abort (self : ErrorHandler) (level : string)
    (partial_output : string) : M string :=
  logging_info (abort_notice level) ;;
  let message := abort_notice level in
  if String.eqb level "Command" then
    let option := "p" in
    if String.eqb option "e" then
      raise (FrameworkAbortException partial_output)
    else if String.eqb option "p" then
      raise (PluginAbortException partial_output)
    else mret message
  else mret message.

Definition db_not_setup : string :=
  "ERROR: DB is not setup yet: cannot log errors to file!".

Definition log_error (self : ErrorHandler) (message : string)
    (trace : option string) : M unit :=
  try_except
    (getattr (db_error self) (fun d => db_error_add d message trace))
    is_AttributeError
    (cprint db_not_setup).

Definition add_new_bug `{Externals} (self : ErrorHandler) (message : string)
    : M unit :=
  exc ← sys_exc_info;
  let err_trace_list := format_exception exc in
  let err_trace := anonymise_command (join nl err_trace_list) in
  let message := anonymise_command message in
  let output :=
    "OWTF BUG: Please report the sanitised information below to help make this better.Thank you" in
  let output := output +:+ (nl +:+ "Message: " +:+ message +:+ nl) in
  let output := output +:+ (nl +:+ "Error Trace:") in
  let output := output +:+ (nl +:+ err_trace) in
  let output := output +:+ (nl +:+ padding self) in
  cprint output ;;
  log_error self message (Some err_trace).

Definition add `{Externals} (self : ErrorHandler) (message : string)
    (type : string) : M unit :=
  if String.eqb type "owtf" then add_new_bug self message
  else
    let output := (padding self +:+ message) +:+ sub_padding self in
    cprint output ;;
    log_error self message None.

(** [body += suffix]: a [TypeError] when [body] is [None]. *)
Definition iadd (body : option string) (suffix : string) : M string :=
  match body with
  | Some b => mret (b +:+ suffix)
  | None => raise TypeError
  end.

Definition py_str (s : option string) : PyObj :=
  match s with
  | Some v => PyStr v
  | None => PyNone
  end.

Definition add_github_issue `{Externals} (self : ErrorHandler)
    (username title body : option string) (id : option nat) : M PyObj :=
  match id, username with
  | Some id, Some username =>
      body ← iadd body (nl +:+ nl +:+ "Submitted By - @");
      let body := body +:+ username in
      let data := PyDict [("title", py_str title); ("body", PyStr body)] in
      let data := json_dumps data in
      headers ← getattr (config self) (fun c => mret
        [("Content-Type", "application/json");
         ("Authorization", "token " +:+ get_val c "GITHUB_BUG_REPORTER_TOKEN")]);
      url ← getattr (config self) (fun c => mret (get_val c "GITHUB_API_ISSUES_URL"));
      request ← requests_post url headers data;
      response ← json request;
      (if status_code request =? 201 then
         getattr (db_error self) (fun d =>
           html_url ← getitem response "html_url";
           update_after_github_report d id body true html_url)
       else mret tt) ;;
      mret response
  | _, _ => mret (PyBool false)
  end.

(** ** Concrete collaborators, for running the handler *)

Definition is_digit (c : ascii) : bool :=
  let n := nat_of_ascii c in
  (Nat.leb 48 n && Nat.leb n 57)%bool.

(** A sanitizer in the manner of [anonymise_command], which turns the IP
    addresses of the targets into [xxx.xxx.xxx.xxx]: every digit becomes [x]. *)
Fixpoint scrub (s : string) : string :=
  match s with
  | EmptyString => EmptyString
  | String c s' => String (if is_digit c then "x"%char else c) (scrub s')
  end.

Definition github_created : Response :=
  mkResponse 201
    (Some (PyDict [("number", PyInt 7);
                   ("html_url", PyStr "https://github.com/owtf/owtf/issues/7")])).

Definition github_not_found : Response :=
  mkResponse 404 (Some (PyDict [("message", PyStr "Not Found")])).

Definition demo_dumps (o : PyObj) : string :=
  match o with
  | PyDict [(_, PyStr t); (_, PyStr b)] =>
      "{'title': '" +:+ t +:+ "', 'body': '" +:+ b +:+ "'}"
  | _ => "null"
  end.

Definition demo_format (e : ExcInfo) : list string :=
  "Traceback (most recent call last):" :: exc_traceback e.

(** The tracker answers [r] to every request. *)
Definition answering (r : Response) : Externals :=
  Build_Externals scrub demo_format demo_dumps (fun _ _ _ => Return r).

(** The network is down: [requests.post] raises. *)
Definition offline : Externals :=
  Build_Externals scrub demo_format demo_dumps
    (fun _ _ _ => Raise (Foreign "ConnectionError")).

Definition demo_config : Config :=
  mkConfig (fun key =>
    if String.eqb key "GITHUB_API_ISSUES_URL"
    then "https://api.github.com/repos/owtf/owtf/issues"
    else "s3cr3t").

Definition ready : ErrorHandler :=
  init __init__ (mkCore None) mkDB (mkErrorDB None) demo_config.

(** A handler whose error store fails on every operation. *)
Definition broken_store : ErrorHandler :=
  init __init__ (mkCore None) mkDB (mkErrorDB (Some (Foreign "OperationalError")))
    demo_config.

Definition demo_exc : ExcInfo :=
  mkExcInfo (Some "IOError") (Some "cannot reach 10.0.0.5")
    ["  File plugin.py, line 12"; "IOError: cannot reach 10.0.0.5"].

Definition world0 : World := mkWorld demo_exc [] [].

Definition world1 : World :=
  mkWorld demo_exc [] [mkErrorRecord "boom" None false None None].

(** ** Readings of a run *)

(** The collaborator calls made between world [w] and a later world [w']. *)
Definition new_events (w w' : World) : list Event :=
  drop (length (events w)) (events w').

Definition is_update (ev : Event) : bool :=
  match ev with
  | DbErrorUpdate _ _ _ _ => true
  | _ => false
  end.

Definition is_finish (ev : Event) : bool :=
  match ev with
  | Finish => true
  | _ => false
  end.

(** A call to the ErrorStore or to the IssueTracker. *)
Definition is_store_or_http (ev : Event) : bool :=
  match ev with
  | DbErrorAdd _ _ | DbErrorUpdate _ _ _ _ | RequestsPost _ _ _ => true
  | _ => false
  end.

(** World [w] after the further collaborator calls [evs]. *)
Definition after (w : World) (evs : list Event) : World :=
  mkWorld (exc_info w) (events w ++ evs) (errors w).

(** Neither field of the record contains [marker]. *)
Definition record_clean (marker : string) (r : ErrorRecord) : Prop :=
  is_substring marker (rec_message r) = false /\
  forall t, rec_trace r = Some t -> is_substring marker t = false.

(** What [add_new_bug] prints for an already sanitized message and trace. *)
Definition bug_output (message err_trace pad : string) : string :=
  (((("OWTF BUG: Please report the sanitised information below to help make this better.Thank you"
      +:+ (nl +:+ "Message: " +:+ message +:+ nl))
     +:+ (nl +:+ "Error Trace:"))
    +:+ (nl +:+ err_trace))
   +:+ (nl +:+ pad)).

(** The request [add_github_issue] sends for an issue. *)
Definition issue_body (body username : string) : string :=
  (body +:+ (nl +:+ nl +:+ "Submitted By - @")) +:+ username.

Definition issue_post `{Externals} (c : Config) (title : option string)
    (body username : string) : Event :=
  RequestsPost (get_val c "GITHUB_API_ISSUES_URL")
    [("Content-Type", "application/json");
     ("Authorization", "token " +:+ get_val c "GITHUB_BUG_REPORTER_TOKEN")]
    (json_dumps (PyDict [("title", py_str title);
                         ("body", PyStr (issue_body body username))])).

(** The tracker answers the request [ev] with the response [r]. *)
Definition answers `{Externals} (ev : Event) (r : Response) : Prop :=
  match ev with
  | RequestsPost url headers data => post url headers data = Return r
  | _ => False
  end.

Definition html_url (payload : PyObj) : option PyObj :=
  match payload with
  | PyDict fields => dict_get fields "html_url"
  | _ => None
  end.


(** The HTTP call raises [e] on the request [ev]. *)
Definition fails_with `{Externals} (ev : Event) (e : Exn) : Prop :=
  match ev with
  | RequestsPost url headers data => post url headers data = Raise e
  | _ => False
  end.

Definition is_console (ev : Event) : bool :=
  match ev with
  | Cprint _ => true
  | _ => false
  end.

(** A handler whose lifecycle owner leaves the process when it has finished,
    as an owner that ends its teardown with [exit(0)] does. *)
Definition exiting_owner : ErrorHandler :=
  init __init__ (mkCore (Some (SystemExit 0))) mkDB (mkErrorDB None) demo_config.

(** A tracker that creates the issue and answers with a page that is not
    JSON. *)
Definition github_created_html : Response := mkResponse 201 None.

(** A tracker that creates the issue and answers without [html_url]. *)
Definition github_created_bare : Response :=
  mkResponse 201 (Some (PyDict [("number", PyInt 7)])).

(** The three shapes of the calls [add_github_issue] makes: none, the
    request alone, or the request followed by one update of the store, and
    what is known in each. *)
Definition filing_calls `{Externals} (self : ErrorHandler)
    (username title body : option string) (id : option nat)
    (evs : list Event) : Prop :=
  evs = [] \/
  (exists c u b,
     username = Some u /\ body = Some b /\ is_Some id /\
     config self = Some c /\ evs = [issue_post c title b u]) \/
  (exists c u b i r payload url,
     username = Some u /\ body = Some b /\ id = Some i /\
     config self = Some c /\ answers (issue_post c title b u) r /\
     status_code r = 201 /\ body_json r = Some payload /\
     html_url payload = Some url /\
     evs = [issue_post c title b u; DbErrorUpdate i (issue_body b u) true url]).

(** A gateway in front of the tracker answers 502 with an HTML page. *)
Definition github_bad_gateway : Response := mkResponse 502 None.

(** A world whose record 0 has already been reported. *)
Definition world_reported : World :=
  mkWorld demo_exc []
    [mkErrorRecord "boom" None true (Some "trace")
       (Some (PyStr "https://github.com/owtf/owtf/issues/7"))].

(** ** Strings *)

Lemma prefix_app (m b : string) : String.prefix m (m +:+ b) = true.
Proof.
  induction m as [|c m IH]; simpl.
  - by destruct b.
  - destruct (Ascii.ascii_dec c c); [exact IH | done].
Qed.

Lemma is_substring_prefix (m s : string) :
  String.prefix m s = true -> is_substring m s = true.
Proof. destruct s; simpl; intros ->; done. Qed.

Lemma is_substring_app (a m b : string) :
  is_substring m (a +:+ (m +:+ b)) = true.
Proof.
  induction a as [|c a IH].
  - change (is_substring m (m +:+ b) = true).
    apply is_substring_prefix, prefix_app.
  - change (is_substring m (String c (a +:+ (m +:+ b))) = true).
    simpl. rewrite IH. apply orb_true_r.
Qed.

Lemma str_app_nil_r (s : string) : s +:+ "" = s.
Proof.
  induction s as [|c s IH]; [done|].
  change (String c (s +:+ "") = String c s). by rewrite IH.
Qed.

Lemma str_app_assoc (a b c : string) : a +:+ (b +:+ c) = (a +:+ b) +:+ c.
Proof.
  induction a as [|k a IH]; [done|].
  change (String k (a +:+ (b +:+ c)) = String k ((a +:+ b) +:+ c)).
  by rewrite IH.
Qed.

Lemma is_substring_suffix (a m : string) : is_substring m (a +:+ m) = true.
Proof. rewrite <- (str_app_nil_r m) at 2. apply is_substring_app. Qed.

Lemma is_substring_cons (m : string) (c : ascii) (s : string) :
  String.prefix m (String c s) = false ->
  is_substring m (String c s) = is_substring m s.
Proof.
  intros Hp.
  change (is_substring m (String c s))
    with (String.prefix m (String c s) || is_substring m s).
  by rewrite Hp.
Qed.

Lemma prefix_head_ne (c k : ascii) (m s : string) :
  c <> k -> String.prefix (String c m) (String k s) = false.
Proof.
  intros Hne. cbn [String.prefix].
  destruct (Ascii.ascii_dec c k); [contradiction | reflexivity].
Qed.

Lemma scrub_char_not_digit (c : ascii) :
  is_digit (if is_digit c then "x"%char else c) = false.
Proof. destruct (is_digit c) eqn:E; [done | exact E]. Qed.

Lemma scrub_clean (t : string) : is_substring "10.0.0.5" (scrub t) = false.
Proof.
  induction t as [|c t IH]; [done|].
  simpl scrub. rewrite is_substring_cons; [exact IH|].
  pose proof (scrub_char_not_digit c) as Hd.
  apply prefix_head_ne. intros E. rewrite <- E in Hd.
  vm_compute in Hd. discriminate Hd.
Qed.

(** ** Running the monad *)

Ltac run :=
  unfold finish, db_error_add, update_after_github_report, json, getitem,
    requests_post, logging_error, logging_info, cprint, sys_exit, sys_exc_info,
    iadd, getattr, try_except, set_errors, emit, raise, after,
    mbind, M_bind, mret, M_ret in *;
  cbn [fst snd exc_info events errors] in *.

Lemma new_events_after (w : World) (evs : list Event) :
  new_events w (after w evs) = evs.
Proof. unfold new_events, after. cbn [events]. apply drop_app_length. Qed.

Lemma after_after (w : World) (evs evs' : list Event) :
  after (after w evs) evs' = after w (evs ++ evs').
Proof. unfold after. cbn [exc_info events errors]. by rewrite <- (assoc_L (++)). Qed.

(** ** [log_error], case by case *)

Ltac each_event :=
  repeat first
    [ apply List.Forall_nil
    | apply List.Forall_cons; [ (by left) || (by right) || reflexivity | ] ].

Lemma log_error_unwired (self : ErrorHandler) (message : string)
    (trace : option string) (w : World) :
  db_error self = None ->
  log_error self message trace w = (Return tt, after w [Cprint db_not_setup]).
Proof. intros E. unfold log_error. rewrite E. reflexivity. Qed.

Lemma log_error_stored (self : ErrorHandler) (d : ErrorDB) (message : string)
    (trace : option string) (w : World) :
  db_error self = Some d -> db_fault d = None ->
  log_error self message trace w =
    (Return tt,
     mkWorld (exc_info w) (events w ++ [DbErrorAdd message trace])
       (errors w ++ [mkErrorRecord message trace false None None])).
Proof. intros E F. unfold log_error. rewrite E. run. rewrite F. reflexivity. Qed.

Lemma log_error_fault (self : ErrorHandler) (d : ErrorDB) (e : Exn)
    (message : string) (trace : option string) (w : World) :
  db_error self = Some d -> db_fault d = Some e ->
  log_error self message trace w =
    if is_AttributeError e
    then (Return tt, after w [DbErrorAdd message trace; Cprint db_not_setup])
    else (Raise e, after w [DbErrorAdd message trace]).
Proof.
  intros E F. unfold log_error. rewrite E. run. rewrite F.
  destruct (is_AttributeError e); [|reflexivity].
  cbn [exc_info events errors]. by rewrite <- (assoc_L (++)).
Qed.

(** Whatever the state of the store, [log_error] prints at most the fallback
    notice and hands the store nothing but its two arguments. *)
Lemma log_error_footprint (self : ErrorHandler) (message : string)
    (trace : option string) (w : World) :
  let out := log_error self message trace w in
  (exists rest, events out.2 = events w ++ rest /\
     Forall (fun ev => ev = DbErrorAdd message trace \/ ev = Cprint db_not_setup)
       rest) /\
  (errors out.2 = errors w \/
   errors out.2 = errors w ++ [mkErrorRecord message trace false None None]).
Proof.
  destruct (db_error self) as [d|] eqn:E.
  - destruct (db_fault d) as [e|] eqn:F.
    + cbn zeta. rewrite (log_error_fault self d e _ _ w E F).
      destruct (is_AttributeError e); cbn [snd after events errors];
        (split; [eexists; split; [reflexivity|] | by left]).
      * each_event.
      * each_event.
    + cbn zeta. rewrite (log_error_stored self d _ _ w E F).
      cbn [snd events errors]. split; [|by right].
      eexists; split; [reflexivity|]. each_event.
  - cbn zeta. rewrite (log_error_unwired self _ _ w E).
    cbn [snd after events errors]. split; [|by left].
    eexists; split; [reflexivity|]. each_event.
Qed.

(** ** The abort controller *)

(** C3: with no lifecycle owner ([core] is [None]), [abort_framework] logs
    the abort message at error severity and then leaves through
    [sys.exit(-1)]: the exit status is the non-zero sentinel -1, nothing is
    returned, the error store is neither called nor changed. *)
Theorem abort_framework_early_exit (self : ErrorHandler) (message : string)
    (w : World) :
  core self = None ->
  let out := abort_framework self message w in
  out = (Raise (SystemExit (-1)),
         after w [LoggingError ("Aborted by Framework: " +:+ message)]) /\
  -1 <> 0 /\
  is_substring message ("Aborted by Framework: " +:+ message) = true /\
  Forall (fun ev => is_store_or_http ev = false) (new_events w out.2) /\
  errors out.2 = errors w.
Proof.
  intros Hcore out.
  assert (Hout : out = (Raise (SystemExit (-1)),
      after w [LoggingError ("Aborted by Framework: " +:+ message)])).
  { subst out. unfold abort_framework. rewrite Hcore. reflexivity. }
  rewrite Hout. cbn [snd]. rewrite new_events_after.
  split_and!; [done | done | apply is_substring_suffix | each_event | done].
Qed.

Lemma abort_framework_early_exit_witness :
  core __init__ = None /\
  abort_framework __init__ "no targets" world0 =
    (Raise (SystemExit (-1)),
     after world0 [LoggingError "Aborted by Framework: no targets"]).
Proof.
  split; [reflexivity|].
  apply (abort_framework_early_exit __init__ "no targets" world0). reflexivity.
Defined.

(** C4: with a lifecycle owner, [abort_framework] logs, calls the owner's
    [finish()] exactly once and, when [finish()] comes back, returns the
    abort message, which contains the original one; it never exits by
    itself: an exception that leaves it is one that [finish()] raised. *)
Theorem abort_framework_finishes (self : ErrorHandler) (c : Core)
    (message : string) (w : World) :
  core self = Some c ->
  let out := abort_framework self message w in
  new_events w out.2 =
    [LoggingError ("Aborted by Framework: " +:+ message); Finish] /\
  length (List.filter is_finish (new_events w out.2)) = 1%nat /\
  (finish_raises c = None ->
     out.1 = Return ("Aborted by Framework: " +:+ message) /\
     is_substring message ("Aborted by Framework: " +:+ message) = true) /\
  (forall e, out.1 = Raise e -> finish_raises c = Some e) /\
  errors out.2 = errors w.
Proof.
  intros Hcore out.
  assert (Hout : out =
    (match finish_raises c with
     | Some e => Raise e
     | None => Return ("Aborted by Framework: " +:+ message)
     end,
     after w [LoggingError ("Aborted by Framework: " +:+ message); Finish])).
  { subst out. unfold abort_framework. rewrite Hcore. run.
    destruct (finish_raises c); cbn [exc_info events errors];
      by rewrite <- (assoc_L (++)). }
  rewrite Hout. cbn [fst snd]. rewrite new_events_after.
  split_and!; [done | done | | | done].
  - intros ->. split; [done | apply is_substring_suffix].
  - intros e. destruct (finish_raises c); [congruence | discriminate].
Qed.

Lemma abort_framework_finishes_witness :
  core ready = Some (mkCore None) /\
  new_events world0 (abort_framework ready "no targets" world0).2 =
    [LoggingError "Aborted by Framework: no targets"; Finish].
Proof.
  split; [reflexivity|].
  apply (abort_framework_finishes ready (mkCore None) "no targets" world0).
  reflexivity.
Defined.

(** C6: [user_abort] at level 'Command' raises an abort exception whose
    partial output is the argument [partial_output] itself. *)
Theorem user_abort_command_keeps_partial_output (self : ErrorHandler)
    (partial_output : string) (w : World) :
  user_abort self "Command" partial_output w =
    (Raise (PluginAbortException partial_output),
     after w [LoggingInfo (abort_notice "Command")]).
Proof. reflexivity. Qed.

(** C7, as amended: [user_abort] returns the notice, which names the level,
    for every level other than 'Command'; at level 'Command' it returns
    nothing and raises [PluginAbortException] with the partial output.  The
    notice is logged at info severity either way. *)
Theorem user_abort_returns_outside_command (self : ErrorHandler)
    (level partial_output : string) (w : World) :
  user_abort self level partial_output w =
    (if String.eqb level "Command"
     then Raise (PluginAbortException partial_output)
     else Return (abort_notice level),
     after w [LoggingInfo (abort_notice level)]) /\
  is_substring level (abort_notice level) = true.
Proof.
  split.
  - unfold user_abort. run. by destruct (String.eqb level "Command").
  - unfold abort_notice. apply (is_substring_app (nl +:+ "The ")).
Qed.

(** C7, as stated, fails at level 'Command': the call does not return the
    notice, it raises. *)
Lemma user_abort_command_returns_nothing :
  (user_abort ready "Command" "partial" world0).1
    <> Return (abort_notice "Command").
Proof. discriminate. Qed.

(** C8: at level 'Command', [user_abort] always raises
    [PluginAbortException] with the partial output; no call of [user_abort],
    at any level, raises [FrameworkAbortException]. *)
Theorem user_abort_command_always_skips (self : ErrorHandler)
    (level partial_output : string) (w : World) :
  (user_abort self "Command" partial_output w).1 =
    Raise (PluginAbortException partial_output) /\
  forall q, (user_abort self level partial_output w).1 <>
    Raise (FrameworkAbortException q).
Proof.
  split; [reflexivity|].
  intros q. unfold user_abort. run.
  destruct (String.eqb level "Command"); discriminate.
Qed.

(** ** The bug reporter *)

Section BugReporter.
Context `{Externals}.

(** C1: [add_new_bug] passes the raw message and the raw trace through
    [anonymise_command] before it writes anything.  The first write is the
    console banner built from the two sanitized strings; after it come only
    the store's [add] with exactly the sanitized message and trace, and the
    constant fallback notice.  So, with a sanitizer whose output never
    contains the sensitive marker, a store whose records are free of the
    marker stays so. *)
Theorem add_new_bug_sanitised (marker : string) (self : ErrorHandler)
    (message : string) (w : World) :
  (forall t, is_substring marker (anonymise_command t) = false) ->
  Forall (record_clean marker) (errors w) ->
  let m := anonymise_command message in
  let t := anonymise_command (join nl (format_exception (exc_info w))) in
  let out := add_new_bug self message w in
  (exists rest,
     new_events w out.2 = Cprint (bug_output m t (padding self)) :: rest /\
     Forall (fun ev => ev = DbErrorAdd m (Some t) \/ ev = Cprint db_not_setup)
       rest) /\
  (errors out.2 = errors w \/
   errors out.2 = errors w ++ [mkErrorRecord m (Some t) false None None]) /\
  Forall (record_clean marker) (errors out.2).
Proof.
  intros Hclean Hinv m t out.
  pose proof (log_error_footprint self m (Some t)
    (after w [Cprint (bug_output m t (padding self))])) as Hfoot.
  cbn zeta in Hfoot.
  assert (Hout : out = log_error self m (Some t)
    (after w [Cprint (bug_output m t (padding self))])) by reflexivity.
  rewrite <- Hout in Hfoot. destruct Hfoot as [(rest & Hev & Hrest) Herr].
  cbn [after events errors] in Hev, Herr.
  split_and!.
  - exists rest. split; [|exact Hrest].
    unfold new_events. rewrite Hev, <- (assoc_L (++)). apply drop_app_length.
  - exact Herr.
  - destruct Herr as [-> | ->]; [exact Hinv|].
    apply Forall_app. split; [exact Hinv|].
    apply List.Forall_cons; [|apply List.Forall_nil].
    split; cbn [rec_message rec_trace]; [apply Hclean|].
    intros t' [= <-]. apply Hclean.
Qed.

(** C9: [add] dispatches on [type].  The default type, 'owtf' in the source
    and the kind called internal in the specification, goes to
    [add_new_bug]; with any other type the message is put between the two
    paddings, printed, and handed as it is to [log_error] with no trace. *)
Theorem add_dispatches_on_owtf (self : ErrorHandler) (message type : string)
    (w : World) :
  let output := (padding self +:+ message) +:+ sub_padding self in
  let out := add self message type w in
  add self message "owtf" w = add_new_bug self message w /\
  (type <> "owtf" ->
     out = log_error self message None (after w [Cprint output]) /\
     is_substring message output = true /\
     exists rest,
       new_events w out.2 = Cprint output :: rest /\
       Forall (fun ev => ev = DbErrorAdd message None \/ ev = Cprint db_not_setup)
         rest).
Proof.
  intros output out. split; [reflexivity|].
  intros Hne.
  assert (Hout : out = log_error self message None (after w [Cprint output])).
  { subst out. unfold add.
    destruct (String.eqb_spec type "owtf") as [->|_]; [done | reflexivity]. }
  split_and!; [exact Hout | |].
  { subst output. rewrite <- str_app_assoc. apply is_substring_app. }
  pose proof (log_error_footprint self message None (after w [Cprint output]))
    as [(rest & Hev & Hrest) _].
  rewrite <- Hout in Hev. cbn [after events] in Hev.
  exists rest. split; [|exact Hrest].
  unfold new_events. rewrite Hev, <- (assoc_L (++)). apply drop_app_length.
Qed.

(** C10: when [id] or [username] is [None], [add_github_issue] returns
    [False] at once and leaves the world as it was: no HTTP request, no call
    to the store, no change of a record. *)
Theorem add_github_issue_missing_argument (self : ErrorHandler)
    (username title body : option string) (id : option nat) (w : World) :
  id = None \/ username = None ->
  add_github_issue self username title body id w = (Return (PyBool false), w) /\
  new_events w (add_github_issue self username title body id w).2 = [].
Proof.
  intros Hmiss.
  assert (Hout : add_github_issue self username title body id w =
                 (Return (PyBool false), w)).
  { destruct Hmiss as [-> | ->]; [reflexivity|]. by destruct id. }
  rewrite Hout. split; [reflexivity|].
  unfold new_events. cbn [snd]. apply drop_all.
Qed.

(** [add_github_issue] with both arguments present, a body, a configuration
    and a tracker that answers with a JSON payload: the run, case by case. *)
Lemma add_github_issue_run (self : ErrorHandler) (c : Config)
    (username body : string) (title : option string) (id : nat) (w : World)
    (r : Response) (payload : PyObj) :
  config self = Some c ->
  answers (issue_post c title body username) r ->
  body_json r = Some payload ->
  let sent := issue_post c title body username in
  let body' := issue_body body username in
  add_github_issue self (Some username) title (Some body) (Some id) w =
    if status_code r =? 201 then
      match db_error self with
      | None => (Raise AttributeError, after w [sent])
      | Some d =>
          match payload, html_url payload with
          | PyDict _, Some url =>
              let called := after w [sent; DbErrorUpdate id body' true url] in
              match db_fault d with
              | Some e => (Raise e, called)
              | None =>
                  (Return payload,
                   mkWorld (exc_info w) (events called)
                     (alter (mark body' true url) id (errors w)))
              end
          | PyDict _, None => (Raise (KeyError "html_url"), after w [sent])
          | _, _ => (Raise TypeError, after w [sent])
          end
      end
    else (Return payload, after w [sent]).
Proof.
  intros Hcfg Hans Hjson sent body'.
  unfold answers, issue_post in Hans.
  unfold add_github_issue. rewrite Hcfg. run. fold (issue_body body username).
  rewrite Hans, Hjson.
  destruct (status_code r =? 201); [|reflexivity].
  destruct (db_error self) as [d|]; [|reflexivity].
  destruct payload as [| | | | |fields]; try reflexivity.
  cbn [html_url]. destruct (dict_get fields "html_url") as [url|]; [|reflexivity].
  cbn [exc_info events errors].
  destruct (db_fault d); cbn [exc_info events errors];
    by rewrite <- (assoc_L (++)).
Qed.

Lemma add_github_issue_shape (self : ErrorHandler)
    (username title body : option string) (id : option nat) :
  exists res evs f,
    (forall w, add_github_issue self username title body id w =
               (res, mkWorld (exc_info w) (events w ++ evs) (f (errors w)))) /\
    (Forall (fun ev => is_update ev = false) evs -> forall rows, f rows = rows) /\
    filing_calls self username title body id evs.
Proof.
  unfold filing_calls.
  assert (Hnil : forall w, w = mkWorld (exc_info w) (events w ++ []) (errors w)).
  { intros [x evs rows]. cbn. by rewrite app_nil_r. }
  destruct id as [i|]; [destruct username as [u|]|].
  2, 3: exists (Return (PyBool false)), [], (fun rows => rows);
        (split_and!; [intros w; by rewrite <- Hnil | done | by left]).
  destruct body as [b|].
  2: { exists (Raise TypeError), [], (fun rows => rows).
       split_and!; [intros w; by rewrite <- Hnil | done | by left]. }
  destruct (config self) as [c|] eqn:Hc.
  2: { exists (Raise AttributeError), [], (fun rows => rows).
       split_and!; [|done | by left].
       intros w. unfold add_github_issue. rewrite Hc. run.
       by rewrite <- Hnil. }
  assert (Hsent : exists c' u' b',
    Some u = Some u' /\ Some b = Some b' /\ is_Some (Some i) /\
    Some c = Some c' /\ [issue_post c title b u] = [issue_post c' title b' u']).
  { by exists c, u, b. }
  destruct (post (get_val c "GITHUB_API_ISSUES_URL")
    [("Content-Type", "application/json");
     ("Authorization", "token " +:+ get_val c "GITHUB_BUG_REPORTER_TOKEN")]
    (json_dumps (PyDict [("title", py_str title);
                         ("body", PyStr (issue_body b u))])))
    as [r|e] eqn:Hp.
  2: { exists (Raise e), [issue_post c title b u], (fun rows => rows).
       split_and!; [|done | right; left; exact Hsent].
       intros w. unfold add_github_issue. rewrite Hc. run.
       fold (issue_body b u). by rewrite Hp. }
  destruct (body_json r) as [payload|] eqn:Hj.
  2: { exists (Raise ValueError), [issue_post c title b u], (fun rows => rows).
       split_and!; [|done | right; left; exact Hsent].
       intros w. unfold add_github_issue. rewrite Hc. run.
       fold (issue_body b u). by rewrite Hp, Hj. }
  assert (Hrun := fun w => add_github_issue_run self c u b title i w r payload
                             Hc Hp Hj).
  cbn zeta in Hrun. revert Hrun.
  destruct (Z.eqb_spec (status_code r) 201) as [Hs|Hs]; intros Hrun.
  2: { exists (Return payload), [issue_post c title b u], (fun rows => rows).
       split_and!; [exact Hrun | done | right; left; exact Hsent]. }
  revert Hrun. destruct (db_error self) as [d|]; intros Hrun.
  2: { exists (Raise AttributeError), [issue_post c title b u], (fun rows => rows).
       split_and!; [exact Hrun | done | right; left; exact Hsent]. }
  destruct (html_url payload) as [url|] eqn:Hu.
  - assert (Hpay : exists fields, payload = PyDict fields).
    { destruct payload; try discriminate Hu. by eexists. }
    destruct Hpay as [fields ->]. rewrite Hu in Hrun.
    revert Hrun. destruct (db_fault d) as [e|]; intros Hrun.
    + exists (Raise e),
        [issue_post c title b u; DbErrorUpdate i (issue_body b u) true url],
        (fun rows => rows).
      split_and!; [exact Hrun | done |].
      right; right. by exists c, u, b, i, r, (PyDict fields), url.
    + exists (Return (PyDict fields)),
        [issue_post c title b u; DbErrorUpdate i (issue_body b u) true url],
        (alter (mark (issue_body b u) true url) i).
      split_and!; [exact Hrun | |].
      * intros Hall. apply Forall_cons in Hall as [_ Hall].
        apply Forall_cons in Hall as [Hupd _]. discriminate Hupd.
      * right; right. by exists c, u, b, i, r, (PyDict fields), url.
  - exists (Raise (match payload with
                   | PyDict _ => KeyError "html_url"
                   | _ => TypeError
                   end)),
      [issue_post c title b u], (fun rows => rows).
    split_and!; [|done | right; left; exact Hsent].
    intros w. rewrite Hrun. destruct payload; try reflexivity.
    by rewrite Hu.
Qed.

(** C2, as amended: for every call with [id] and [username] present, the
    store's [update_after_github_report] is called only if the tracker
    answered the request with status 201 and a JSON body holding [html_url],
    and then once, with that [id], the attributed body, [True] and that
    [html_url]; it is called whenever the tracker so answers and the handler
    has a store, and a healthy store then writes the mark and the payload is
    returned.  On any other status the record is not changed; the payload is
    returned as it came when the body of the response is JSON, and
    [ValueError] is raised when it is not.  Without a call to the store no
    record changes. *)
Theorem add_github_issue_marks_when_created (self : ErrorHandler)
    (username : string) (title body : option string) (id : nat) (w : World) :
  let out := add_github_issue self (Some username) title body (Some id) w in
  (Exists (fun ev => is_update ev = true) (new_events w out.2) ->
     exists c b r payload url,
       body = Some b /\ config self = Some c /\
       answers (issue_post c title b username) r /\ status_code r = 201 /\
       body_json r = Some payload /\ html_url payload = Some url /\
       new_events w out.2 =
         [issue_post c title b username;
          DbErrorUpdate id (issue_body b username) true url]) /\
  (forall c d b r payload url,
     body = Some b -> config self = Some c -> db_error self = Some d ->
     answers (issue_post c title b username) r -> status_code r = 201 ->
     body_json r = Some payload -> html_url payload = Some url ->
     new_events w out.2 =
       [issue_post c title b username;
        DbErrorUpdate id (issue_body b username) true url] /\
     (db_fault d = None ->
        out.1 = Return payload /\
        errors out.2 =
          alter (mark (issue_body b username) true url) id (errors w))) /\
  (forall c b r,
     body = Some b -> config self = Some c ->
     answers (issue_post c title b username) r -> status_code r <> 201 ->
     out = (match body_json r with
            | Some payload => Return payload
            | None => Raise ValueError
            end, after w [issue_post c title b username])) /\
  (Forall (fun ev => is_update ev = false) (new_events w out.2) ->
   errors out.2 = errors w).
Proof.
  intros out. split_and!.
  - destruct (add_github_issue_shape self (Some username) title body (Some id))
      as (res & evs & f & Hrun & _ & Hcalls).
    subst out. rewrite Hrun. cbn [snd].
    assert (Hnew : new_events w (mkWorld (exc_info w) (events w ++ evs)
                                   (f (errors w))) = evs).
    { unfold new_events. cbn [events]. apply drop_app_length. }
    rewrite Hnew. intros Hex.
    destruct Hcalls as [-> | [(c & u & b & _ & _ & _ & _ & ->) |
      (c & u & b & i & r & payload & url & Hu & Hb & Hi & Hc & Ha & Hs & Hj
         & Hh & ->)]].
    + by apply Exists_nil in Hex.
    + apply Exists_cons in Hex as [Hex|Hex]; [discriminate Hex|].
      by apply Exists_nil in Hex.
    + injection Hu as <-. injection Hi as <-.
      by exists c, b, r, payload, url.
  - intros c d b r payload url -> Hc Hd Ha Hs Hj Hh.
    pose proof (add_github_issue_run self c username b title id w r payload
      Hc Ha Hj) as Hrun.
    cbn zeta in Hrun. fold out in Hrun.
    rewrite Hs, Hd in Hrun. change (201 =? 201) with true in Hrun.
    assert (Hpay : exists fields, payload = PyDict fields).
    { destruct payload; try discriminate Hh. by eexists. }
    destruct Hpay as [fields ->]. rewrite Hh in Hrun.
    split.
    + rewrite Hrun. destruct (db_fault d); cbn [snd];
        [apply new_events_after |].
      unfold new_events, after. cbn [events]. apply drop_app_length.
    + intros Hf. rewrite Hrun, Hf. done.
  - intros c b r -> Hc Ha Hs.
    destruct (body_json r) as [payload|] eqn:Hj.
    + subst out.
      rewrite (add_github_issue_run self c username b title id w r payload
                 Hc Ha Hj).
      cbn zeta. by destruct (Z.eqb_spec (status_code r) 201).
    + unfold answers, issue_post in Ha. subst out.
      unfold add_github_issue. rewrite Hc. run. fold (issue_body b username).
      by rewrite Ha, Hj.
  - destruct (add_github_issue_shape self (Some username) title body (Some id))
      as (res & evs & f & Hrun & Hf & _).
    subst out. rewrite Hrun. cbn [snd errors].
    assert (Hnew : new_events w (mkWorld (exc_info w) (events w ++ evs)
                                   (f (errors w))) = evs).
    { unfold new_events. cbn [events]. apply drop_app_length. }
    rewrite Hnew. intros Hall. by apply Hf.
Qed.


End BugReporter.

(** ** The claims on concrete runs *)

Lemma add_new_bug_sanitised_witness :
  (forall t, is_substring "10.0.0.5" (scrub t) = false) /\
  Forall (record_clean "10.0.0.5") (errors world0) /\
  errors (@add_new_bug offline ready "cannot reach 10.0.0.5" world0).2 =
    [mkErrorRecord "cannot reach xx.x.x.x"
       (Some (join nl ["Traceback (most recent call last):";
                       "  File plugin.py, line xx";
                       "IOError: cannot reach xx.x.x.x"]))
       false None None] /\
  Forall (record_clean "10.0.0.5")
    (errors (@add_new_bug offline ready "cannot reach 10.0.0.5" world0).2).
Proof.
  split; [exact scrub_clean|].
  split; [apply List.Forall_nil|].
  split; [reflexivity|].
  apply (@add_new_bug_sanitised offline "10.0.0.5" ready
           "cannot reach 10.0.0.5" world0 scrub_clean).
  apply List.Forall_nil.
Defined.

Lemma add_github_issue_marks_when_created_witness :
  new_events world1
    (@add_github_issue (answering github_created) ready
       (Some "alice") (Some "crash") (Some "trace") (Some 0%nat) world1).2 =
    [@issue_post (answering github_created) demo_config (Some "crash")
       "trace" "alice";
     DbErrorUpdate 0 (issue_body "trace" "alice") true
       (PyStr "https://github.com/owtf/owtf/issues/7")] /\
  errors
    (@add_github_issue (answering github_created) ready
       (Some "alice") (Some "crash") (Some "trace") (Some 0%nat) world1).2 =
    [mkErrorRecord "boom" None true (Some (issue_body "trace" "alice"))
       (Some (PyStr "https://github.com/owtf/owtf/issues/7"))] /\
  @add_github_issue (answering github_not_found) ready
    (Some "alice") (Some "crash") (Some "trace") (Some 0%nat) world1 =
    (Return (PyDict [("message", PyStr "Not Found")]),
     after world1
       [@issue_post (answering github_not_found) demo_config (Some "crash")
          "trace" "alice"]).
Proof.
  pose proof (@add_github_issue_marks_when_created (answering github_created)
    ready "alice" (Some "crash") (Some "trace") 0%nat world1)
    as (_ & Hcreated & _ & _).
  destruct (Hcreated demo_config (mkErrorDB None) "trace" github_created
    (PyDict [("number", PyInt 7);
             ("html_url", PyStr "https://github.com/owtf/owtf/issues/7")])
    (PyStr "https://github.com/owtf/owtf/issues/7")
    eq_refl eq_refl eq_refl eq_refl eq_refl eq_refl eq_refl)
    as [Hev Hmark].
  destruct (Hmark eq_refl) as [_ Herr].
  split; [exact Hev|]. split; [exact Herr|].
  pose proof (@add_github_issue_marks_when_created (answering github_not_found)
    ready "alice" (Some "crash") (Some "trace") 0%nat world1)
    as (_ & _ & Hother & _).
  apply (Hother demo_config "trace" github_not_found eq_refl eq_refl eq_refl).
  discriminate.
Defined.

(** C2, as stated, fails on a response that is not 201 and whose body is not
    JSON: the call raises [ValueError] instead of returning the payload. *)
Lemma add_github_issue_raises_on_bad_gateway :
  status_code github_bad_gateway <> 201 /\
  @add_github_issue (answering github_bad_gateway) ready
    (Some "alice") (Some "crash") (Some "trace") (Some 0%nat) world1 =
    (Raise ValueError,
     after world1
       [@issue_post (answering github_bad_gateway) demo_config (Some "crash")
          "trace" "alice"]).
Proof. split; [discriminate | reflexivity]. Qed.



Lemma add_dispatches_on_owtf_witness :
  "plain" <> "owtf" /\
  @add offline ready "cannot reach 10.0.0.5" "owtf" world0 =
    @add_new_bug offline ready "cannot reach 10.0.0.5" world0 /\
  @add offline ready "cannot reach 10.0.0.5" "plain" world0 =
    log_error ready "cannot reach 10.0.0.5" None
      (after world0
         [Cprint ((padding ready +:+ "cannot reach 10.0.0.5")
                  +:+ sub_padding ready)]).
Proof.
  pose proof (@add_dispatches_on_owtf offline ready "cannot reach 10.0.0.5"
    "plain" world0) as [Howtf Hplain].
  split; [discriminate|]. split; [exact Howtf|].
  apply Hplain. discriminate.
Defined.

Lemma add_github_issue_missing_argument_witness :
  (@None string = None \/ Some "alice" = None) /\
  @add_github_issue offline ready None (Some "crash") (Some "trace")
    (Some 0%nat) world1 = (Return (PyBool false), world1) /\
  @add_github_issue offline ready (Some "alice") (Some "crash") (Some "trace")
    None world1 = (Return (PyBool false), world1).
Proof.
  split; [by left|]. split.
  - apply (@add_github_issue_missing_argument offline ready None (Some "crash")
             (Some "trace") (Some 0%nat) world1).
    by right.
  - apply (@add_github_issue_missing_argument offline ready (Some "alice")
             (Some "crash") (Some "trace") None world1).
    by left.
Defined.

(** ** Further properties of the abort controller *)

(** When the owner's [finish()] raises, [abort_framework] has logged the
    abort and called [finish()] once, and the exception leaves it: the abort
    message is not returned. *)
Theorem abort_framework_finish_raises (self : ErrorHandler) (c : Core)
    (e : Exn) (message : string) (w : World) :
  core self = Some c ->
  finish_raises c = Some e ->
  abort_framework self message w =
    (Raise e,
     after w [LoggingError ("Aborted by Framework: " +:+ message); Finish]).
Proof.
  intros Hcore Hfin. unfold abort_framework. rewrite Hcore. run.
  rewrite Hfin. cbn [exc_info events errors]. by rewrite <- (assoc_L (++)).
Qed.

Lemma abort_framework_finish_raises_witness :
  abort_framework exiting_owner "no targets" world0 =
    (Raise (SystemExit 0),
     after world0 [LoggingError "Aborted by Framework: no targets"; Finish]).
Proof.
  apply (abort_framework_finish_raises exiting_owner
           (mkCore (Some (SystemExit 0))) (SystemExit 0) "no targets" world0);
    reflexivity.
Defined.

(** In every state of the handler, the two abort operations only log (and
    call [finish()]): they print nothing on the console, call neither the
    error store nor the tracker, and leave the store as it is. *)
Theorem abort_paths_leave_reporting_alone (self : ErrorHandler)
    (message level partial_output : string) (w : World) :
  let quiet := fun ev =>
    (is_store_or_http ev = false /\ is_console ev = false) in
  Forall quiet (new_events w (abort_framework self message w).2) /\
  errors (abort_framework self message w).2 = errors w /\
  Forall quiet (new_events w (user_abort self level partial_output w).2) /\
  errors (user_abort self level partial_output w).2 = errors w.
Proof.
  intros quiet.
  assert (Habort : exists res evs,
    abort_framework self message w = (res, after w evs) /\ Forall quiet evs).
  { unfold abort_framework. run. destruct (core self) as [c|].
    - run. destruct (finish_raises c);
        eexists _, [_; _]; cbn [exc_info events errors];
        rewrite <- (assoc_L (++)); (split; [reflexivity|]);
        repeat (apply List.Forall_cons; [by split|]); apply List.Forall_nil.
    - eexists _, [_]. split; [reflexivity|].
      apply List.Forall_cons; [by split | apply List.Forall_nil]. }
  assert (Huser : exists res evs,
    user_abort self level partial_output w = (res, after w evs) /\
    Forall quiet evs).
  { unfold user_abort. run.
    destruct (String.eqb level "Command"); eexists _, [_];
      (split; [reflexivity|]);
      (apply List.Forall_cons; [by split | apply List.Forall_nil]). }
  destruct Habort as (ra & ea & -> & Ha), Huser as (ru & eu & -> & Hu).
  cbn [snd]. rewrite !new_events_after. done.
Qed.

(** [set_command] changes the [command] attribute and nothing else, and no
    operation of the handler reads that attribute: each behaves after
    [set_command] as it did before. *)
Theorem set_command_is_never_read `{Externals} (self : ErrorHandler)
    (command' : string) (w : World) :
  let self' := set_command self command' in
  command self' = command' /\
  (core self', db self', db_error self', config self', padding self',
   sub_padding self') =
  (core self, db self, db_error self, config self, padding self,
   sub_padding self) /\
  (forall message, abort_framework self' message w =
                   abort_framework self message w) /\
  (forall level partial_output,
     user_abort self' level partial_output w =
     user_abort self level partial_output w) /\
  (forall message trace,
     log_error self' message trace w = log_error self message trace w) /\
  (forall message type, add self' message type w = add self message type w) /\
  (forall username title body id,
     add_github_issue self' username title body id w =
     add_github_issue self username title body id w).
Proof. intros self'. split_and!; reflexivity. Qed.

(** ** Further properties of the bug reporter *)

Lemma prefix_app_l (m s b : string) :
  String.prefix m s = true -> String.prefix m (s +:+ b) = true.
Proof.
  revert s. induction m as [|c m IH]; intros s Hp.
  { by destruct (s +:+ b). }
  destruct s as [|k s]; [discriminate Hp|].
  change (String.prefix (String c m) (String k (s +:+ b)) = true).
  cbn [String.prefix] in *.
  destruct (Ascii.ascii_dec c k); [by apply IH | discriminate Hp].
Qed.

Lemma is_substring_app_l (m s b : string) :
  is_substring m s = true -> is_substring m (s +:+ b) = true.
Proof.
  induction s as [|k s IH]; intros Hin.
  - apply is_substring_prefix. apply (prefix_app_l m "" b).
    cbn [is_substring] in Hin. by rewrite orb_false_r in Hin.
  - change (is_substring m (String k (s +:+ b)) = true).
    cbn [is_substring] in *.
    apply orb_true_iff in Hin as [Hp|Hin]; apply orb_true_iff.
    + left. apply (prefix_app_l m (String k s) b Hp).
    + right. by apply IH.
Qed.

Lemma is_substring_app_r (m a s : string) :
  is_substring m s = true -> is_substring m (a +:+ s) = true.
Proof.
  intros Hin. induction a as [|k a IH]; [exact Hin|].
  change (is_substring m (String k (a +:+ s)) = true).
  cbn [is_substring]. rewrite IH. apply orb_true_r.
Qed.


Section Reporting.
Context `{Externals}.

(** Once [init] has resolved a healthy store, [log_error] hands the pair to
    the store's [add] exactly once, prints nothing, and returns; the new
    record sits behind the old ones, which are kept as they were. *)
Theorem log_error_after_init (self : ErrorHandler) (core' : Core) (db' : DB)
    (d : ErrorDB) (config' : Config) (message : string)
    (trace : option string) (w : World) :
  db_fault d = None ->
  let out := log_error (init self core' db' d config') message trace w in
  out.1 = Return tt /\
  new_events w out.2 = [DbErrorAdd message trace] /\
  errors out.2 !! length (errors w) =
    Some (mkErrorRecord message trace false None None) /\
  length (errors out.2) = S (length (errors w)) /\
  (forall (i : nat) (r : ErrorRecord),
     errors w !! i = Some r -> errors out.2 !! i = Some r).
Proof.
  intros Hd out.
  assert (Hout : out =
    (Return tt,
     mkWorld (exc_info w) (events w ++ [DbErrorAdd message trace])
       (errors w ++ [mkErrorRecord message trace false None None]))).
  { apply (log_error_stored _ d); [reflexivity | exact Hd]. }
  rewrite Hout. cbn [fst snd errors]. split_and!.
  - done.
  - unfold new_events. cbn [events]. apply drop_app_length.
  - apply list_lookup_middle. done.
  - rewrite length_app. cbn. lia.
  - intros i r Hi. by apply lookup_app_l_Some.
Qed.

(** On a handler without a store, [add] returns normally for every type: it
    prints its output, then the fallback notice, and nothing else happens. *)
Theorem add_without_store (self : ErrorHandler) (message type : string)
    (w : World) :
  db_error self = None ->
  let out := add self message type w in
  out.1 = Return tt /\
  (exists output, new_events w out.2 = [Cprint output; Cprint db_not_setup]) /\
  errors out.2 = errors w.
Proof.
  intros Hdb out.
  assert (Hout : exists output,
    out = (Return tt, after w [Cprint output; Cprint db_not_setup])).
  { subst out. unfold add, add_new_bug.
    destruct (String.eqb type "owtf"); run;
      rewrite (log_error_unwired self _ _ _ Hdb);
      eexists; unfold after; cbn [exc_info events errors];
      by rewrite <- (assoc_L (++)). }
  destruct Hout as [output ->]. cbn [fst snd].
  rewrite new_events_after. split_and!; [done | by exists output | done].
Qed.

(** Provided the sanitizer, the formatting of the traceback and [cprint]
    return, as they are taken to do here, an exception leaves [add] (and so
    [add_new_bug]) only when the store's [add] raised it and it is not an
    [AttributeError]; by then the output has been printed. *)
Theorem add_raises_only_store_errors (self : ErrorHandler)
    (message type : string) (w : World) (e : Exn) :
  (add self message type w).1 = Raise e ->
  is_AttributeError e = false /\
  (exists d, db_error self = Some d /\ db_fault d = Some e) /\
  exists output rest,
    new_events w (add self message type w).2 = Cprint output :: rest.
Proof.
  assert (Hshape : exists output m t,
    add self message type w = log_error self m t (after w [Cprint output])).
  { unfold add. destruct (String.eqb type "owtf").
    - exists (bug_output (anonymise_command message)
                (anonymise_command (join nl (format_exception (exc_info w))))
                (padding self)),
             (anonymise_command message),
             (Some (anonymise_command
                      (join nl (format_exception (exc_info w))))).
      reflexivity.
    - exists ((padding self +:+ message) +:+ sub_padding self), message, None.
      reflexivity. }
  destruct Hshape as (output & m & t & ->).
  destruct (db_error self) as [d|] eqn:E.
  - destruct (db_fault d) as [e'|] eqn:F.
    + rewrite (log_error_fault self d e' _ _ _ E F).
      destruct (is_AttributeError e') eqn:A; cbn [fst snd]; [discriminate|].
      intros [= <-]. split_and!; [exact A | by exists d |].
      rewrite after_after, new_events_after. by eexists _, _.
    + rewrite (log_error_stored self d _ _ _ E F). discriminate.
  - rewrite (log_error_unwired self _ _ _ E). discriminate.
Qed.

(** With a type other than 'owtf', [add] never calls the sanitizer: the
    store receives the message as it came, with no trace, so whatever
    sensitive marker the message holds is in the stored record. *)
Theorem add_plain_stores_raw_message (self : ErrorHandler) (d : ErrorDB)
    (message type : string) (w : World) :
  type <> "owtf" ->
  db_error self = Some d ->
  db_fault d = None ->
  let out := add self message type w in
  errors out.2 = errors w ++ [mkErrorRecord message None false None None] /\
  (forall E' : Externals, @add E' self message type w = out) /\
  (forall marker, is_substring marker message = true ->
     ~ Forall (record_clean marker) (errors out.2)).
Proof.
  intros Hne Hdb Hd out.
  assert (Hplain : forall E' : Externals,
    @add E' self message type w =
    (Return tt,
     mkWorld (exc_info w)
       (events w ++ [Cprint ((padding self +:+ message) +:+ sub_padding self);
                     DbErrorAdd message None])
       (errors w ++ [mkErrorRecord message None false None None]))).
  { intros E'. unfold add.
    destruct (String.eqb_spec type "owtf") as [->|_]; [done|]. run.
    rewrite (log_error_stored self d _ _ _ Hdb Hd).
    cbn [exc_info events errors]. by rewrite <- (assoc_L (++)). }
  subst out. rewrite (Hplain H). cbn [snd errors]. split_and!.
  - done.
  - intros E'. apply Hplain.
  - intros marker Hin Hall. apply Forall_app in Hall as [_ Hlast].
    apply Forall_cons in Hlast as [[Hmsg _] _].
    cbn [rec_message] in Hmsg. congruence.
Qed.

(** What [add_new_bug] prints begins with the fixed banner, holds the
    sanitized message and the sanitized trace, and ends with the handler's
    padding. *)
Theorem add_new_bug_banner (self : ErrorHandler) (message : string)
    (w : World) :
  let m := anonymise_command message in
  let t := anonymise_command (join nl (format_exception (exc_info w))) in
  exists output rest tail,
    new_events w (add_new_bug self message w).2 = Cprint output :: rest /\
    String.prefix
      "OWTF BUG: Please report the sanitised information below to help make this better.Thank you"
      output = true /\
    is_substring m output = true /\
    is_substring t output = true /\
    output = tail +:+ (nl +:+ padding self).
Proof.
  intros m t.
  pose proof (log_error_footprint self m (Some t)
    (after w [Cprint (bug_output m t (padding self))]))
    as [(rest & Hev & _) _].
  cbn [after events] in Hev.
  eexists (bug_output m t (padding self)), rest, _. split_and!.
  - change (add_new_bug self message w) with
      (log_error self m (Some t)
         (after w [Cprint (bug_output m t (padding self))])).
    unfold new_events. rewrite Hev, <- (assoc_L (++)). apply drop_app_length.
  - unfold bug_output. do 3 apply prefix_app_l. apply prefix_app.
  - unfold bug_output. do 3 apply is_substring_app_l.
    apply is_substring_app_r, is_substring_app_r, is_substring_app_r.
    apply is_substring_prefix, prefix_app.
  - unfold bug_output. apply is_substring_app_l, is_substring_app_r.
    apply is_substring_suffix.
  - reflexivity.
Qed.

End Reporting.

Lemma log_error_after_init_witness :
  new_events world1 (log_error ready "boom again" None world1).2 =
    [DbErrorAdd "boom again" None] /\
  errors (log_error ready "boom again" None world1).2 !! 1%nat =
    Some (mkErrorRecord "boom again" None false None None).
Proof.
  pose proof (log_error_after_init __init__ (mkCore None) mkDB (mkErrorDB None)
    demo_config "boom again" None world1 eq_refl) as (_ & Hev & Hrec & _).
  split; [exact Hev | exact Hrec].
Defined.

Lemma add_without_store_witness :
  (@add offline __init__ "cannot reach 10.0.0.5" "owtf" world0).1 = Return tt /\
  (@add offline __init__ "cannot reach 10.0.0.5" "plain" world0).1 = Return tt.
Proof.
  split.
  - apply (@add_without_store offline __init__ "cannot reach 10.0.0.5" "owtf"
             world0 eq_refl).
  - apply (@add_without_store offline __init__ "cannot reach 10.0.0.5" "plain"
             world0 eq_refl).
Defined.

Lemma add_raises_only_store_errors_witness :
  (@add offline broken_store "boom" "owtf" world0).1 =
    Raise (Foreign "OperationalError") /\
  exists d, db_error broken_store = Some d /\
            db_fault d = Some (Foreign "OperationalError").
Proof.
  split; [reflexivity|].
  apply (@add_raises_only_store_errors offline broken_store "boom" "owtf"
           world0 (Foreign "OperationalError")).
  reflexivity.
Defined.

Lemma add_plain_stores_raw_message_witness :
  errors (@add offline ready "cannot reach 10.0.0.5" "plain" world0).2 =
    [mkErrorRecord "cannot reach 10.0.0.5" None false None None] /\
  ~ Forall (record_clean "10.0.0.5")
      (errors (@add offline ready "cannot reach 10.0.0.5" "plain" world0).2).
Proof.
  pose proof (@add_plain_stores_raw_message offline ready (mkErrorDB None)
    "cannot reach 10.0.0.5" "plain" world0 ltac:(discriminate) eq_refl eq_refl)
    as (Herr & _ & Hleak).
  split; [exact Herr | by apply Hleak].
Defined.

(** ** Further properties of [add_github_issue] *)

Section Filing.
Context `{Externals}.

(** Whatever the arguments and the state of the handler, [add_github_issue]
    calls nothing, or sends one request, or sends one request and then
    updates the store once; the store's content changes only in the last
    case, which requires all of [id], [username] and [body], a configuration,
    and a tracker that answered 201 with a payload holding [html_url].  It
    never prints and never adds a record. *)
Theorem add_github_issue_footprint (self : ErrorHandler)
    (username title body : option string) (id : option nat) (w : World) :
  let out := add_github_issue self username title body id w in
  filing_calls self username title body id (new_events w out.2) /\
  events out.2 = events w ++ new_events w out.2 /\
  (Forall (fun ev => is_update ev = false) (new_events w out.2) ->
   errors out.2 = errors w).
Proof.
  destruct (add_github_issue_shape self username title body id)
    as (res & evs & f & Hrun & Hf & Hcalls).
  cbn zeta. rewrite Hrun. cbn [snd events errors].
  assert (Hnew : new_events w (mkWorld (exc_info w) (events w ++ evs)
                                 (f (errors w))) = evs).
  { unfold new_events. cbn [events]. apply drop_app_length. }
  rewrite Hnew. split_and!; [exact Hcalls | done |].
  intros Hall. by apply Hf.
Qed.

(** [add_github_issue] does not look at the record before it files it: with
    [id], [username], [body] and a configuration, the request is sent
    whatever the store holds, also when the record is already marked as
    reported and when there is no record of that [id]. *)
Theorem add_github_issue_posts_without_looking (self : ErrorHandler)
    (c : Config) (username body : string) (title : option string) (id : nat)
    (w : World) :
  config self = Some c ->
  exists rest,
    new_events w
      (add_github_issue self (Some username) title (Some body) (Some id) w).2 =
    issue_post c title body username :: rest.
Proof.
  intros Hc.
  assert (Hlast : forall evs rows,
    new_events w (mkWorld (exc_info w)
                    (events w ++ [issue_post c title body username] ++ evs)
                    rows) =
    issue_post c title body username :: evs).
  { intros evs rows. unfold new_events. cbn [events]. apply drop_app_length. }
  unfold add_github_issue. rewrite Hc. run.
  fold (issue_body body username). fold (issue_post c title body username).
  match goal with
  | |- context [post ?u ?h ?d] => destruct (post u h d) as [r|e]
  end; [|exists []; apply Hlast].
  destruct (body_json r) as [payload|]; [|exists []; apply Hlast].
  destruct (status_code r =? 201); [|exists []; apply Hlast].
  destruct (db_error self) as [d|]; [|exists []; apply Hlast].
  destruct payload; try (exists []; apply Hlast).
  destruct (dict_get fields "html_url") as [url|]; [|exists []; apply Hlast].
  cbn [exc_info events errors].
  destruct (db_fault d); eexists [_]; cbn [snd];
    rewrite <- (assoc_L (++)); apply Hlast.
Qed.

(** With [id] and [username] given but no [body] (the default), the call
    fails with a [TypeError] on the attribution line, before any request. *)
Theorem add_github_issue_without_body (self : ErrorHandler)
    (username : string) (title : option string) (id : nat) (w : World) :
  add_github_issue self (Some username) title None (Some id) w =
    (Raise TypeError, w).
Proof. reflexivity. Qed.

(** On a handler without configuration, as the constructor leaves it, a
    complete call does not return [False]: it raises [AttributeError], and no
    request is sent. *)
Theorem add_github_issue_unconfigured (self : ErrorHandler)
    (username body : string) (title : option string) (id : nat) (w : World) :
  config self = None ->
  add_github_issue self (Some username) title (Some body) (Some id) w =
    (Raise AttributeError, w).
Proof. intros Hc. unfold add_github_issue. rewrite Hc. reflexivity. Qed.

(** When the HTTP call itself raises, the exception leaves
    [add_github_issue] after the one request; the store is not called. *)
Theorem add_github_issue_post_raises (self : ErrorHandler) (c : Config)
    (username body : string) (title : option string) (id : nat) (e : Exn)
    (w : World) :
  config self = Some c ->
  fails_with (issue_post c title body username) e ->
  add_github_issue self (Some username) title (Some body) (Some id) w =
    (Raise e, after w [issue_post c title body username]).
Proof.
  intros Hc Hp. unfold fails_with, issue_post in Hp.
  unfold add_github_issue. rewrite Hc. run. fold (issue_body body username).
  by rewrite Hp.
Qed.

(** The body of the response is decoded before the status is looked at: a
    response that is not JSON ends the call with [ValueError] whatever its
    status, 201 included, and the store is not called. *)
Theorem add_github_issue_body_not_json (self : ErrorHandler) (c : Config)
    (username body : string) (title : option string) (id : nat)
    (r : Response) (w : World) :
  config self = Some c ->
  answers (issue_post c title body username) r ->
  body_json r = None ->
  add_github_issue self (Some username) title (Some body) (Some id) w =
    (Raise ValueError, after w [issue_post c title body username]).
Proof.
  intros Hc Hp Hj. unfold answers, issue_post in Hp.
  unfold add_github_issue. rewrite Hc. run. fold (issue_body body username).
  by rewrite Hp, Hj.
Qed.

(** An issue that the tracker created (status 201) stays unmarked, and the
    call raises instead of returning the payload, when the handler has no
    store ([AttributeError]), when the payload has no [html_url] ([KeyError]
    for a dictionary, [TypeError] otherwise; the store is not called), or
    when the store's update fails (its exception, after the update call). *)
Theorem add_github_issue_created_but_unmarked (self : ErrorHandler)
    (c : Config) (username body : string) (title : option string) (id : nat)
    (r : Response) (payload : PyObj) (w : World) :
  config self = Some c ->
  answers (issue_post c title body username) r ->
  body_json r = Some payload ->
  status_code r = 201 ->
  let sent := issue_post c title body username in
  let out := add_github_issue self (Some username) title (Some body) (Some id) w in
  (db_error self = None -> out = (Raise AttributeError, after w [sent])) /\
  (is_Some (db_error self) -> html_url payload = None ->
     out = (Raise (match payload with
                   | PyDict _ => KeyError "html_url"
                   | _ => TypeError
                   end), after w [sent])) /\
  (forall d url e,
     db_error self = Some d -> html_url payload = Some url ->
     db_fault d = Some e ->
     out = (Raise e,
            after w [sent; DbErrorUpdate id (issue_body body username) true url])).
Proof.
  intros Hc Hp Hj Hs sent out.
  pose proof (add_github_issue_run self c username body title id w r payload
    Hc Hp Hj) as Hrun.
  cbn zeta in Hrun. fold sent out in Hrun.
  rewrite Hs in Hrun. change (201 =? 201) with true in Hrun.
  split_and!.
  - intros Hd. by rewrite Hd in Hrun.
  - intros [d Hd] Hu. rewrite Hd in Hrun. rewrite Hrun.
    destruct payload; try reflexivity. by rewrite Hu.
  - intros d url e Hd Hu Hf. rewrite Hd in Hrun. rewrite Hrun.
    destruct payload; try discriminate Hu. by rewrite Hu, Hf.
Qed.

End Filing.

Lemma add_github_issue_unconfigured_witness :
  @add_github_issue offline __init__ (Some "alice") (Some "crash")
    (Some "trace") (Some 0%nat) world1 = (Raise AttributeError, world1).
Proof.
  apply (@add_github_issue_unconfigured offline __init__ "alice" "trace"
           (Some "crash") 0%nat world1).
  reflexivity.
Defined.

Lemma add_github_issue_post_raises_witness :
  (@add_github_issue offline ready (Some "alice") (Some "crash")
     (Some "trace") (Some 0%nat) world1).1 = Raise (Foreign "ConnectionError").
Proof.
  rewrite (@add_github_issue_post_raises offline ready demo_config "alice"
             "trace" (Some "crash") 0%nat (Foreign "ConnectionError") world1
             eq_refl eq_refl).
  reflexivity.
Defined.

Lemma add_github_issue_body_not_json_witness :
  (@add_github_issue (answering github_created_html) ready (Some "alice")
     (Some "crash") (Some "trace") (Some 0%nat) world1).1 = Raise ValueError.
Proof.
  rewrite (@add_github_issue_body_not_json (answering github_created_html)
             ready demo_config "alice" "trace" (Some "crash") 0%nat
             github_created_html world1 eq_refl eq_refl eq_refl).
  reflexivity.
Defined.

Lemma add_github_issue_created_but_unmarked_witness :
  @add_github_issue (answering github_created_bare) ready (Some "alice")
    (Some "crash") (Some "trace") (Some 0%nat) world1 =
  (Raise (KeyError "html_url"),
   after world1
     [@issue_post (answering github_created_bare) demo_config (Some "crash")
        "trace" "alice"]).
Proof.
  pose proof (@add_github_issue_created_but_unmarked
    (answering github_created_bare) ready demo_config "alice" "trace"
    (Some "crash") 0%nat github_created_bare
    (PyDict [("number", PyInt 7)]) world1 eq_refl eq_refl eq_refl eq_refl)
    as (_ & Hkey & _).
  apply Hkey; [by eexists | reflexivity].
Defined.

Lemma add_github_issue_posts_without_looking_witness :
  reported <$> errors world_reported !! 0%nat = Some true /\
  exists rest,
    new_events world_reported
      (@add_github_issue (answering github_created) ready (Some "alice")
         (Some "crash") (Some "trace") (Some 0%nat) world_reported).2 =
    @issue_post (answering github_created) demo_config (Some "crash")
      "trace" "alice" :: rest.
Proof.
  split; [reflexivity|].
  apply (@add_github_issue_posts_without_looking (answering github_created)
           ready demo_config "alice" "trace" (Some "crash") 0%nat
           world_reported).
  reflexivity.
Defined.
